(** * jetgan: jet-image rasterisation, record files and the generation driver

    A shallow embedding of [jetgan/data/image.py], [jetgan/data/generators.py]
    and the event loop of [jetgan/data/generate_data.py].

    Conventions of the embedding:
    - Numbers come in two models.  In [Image], [Generators] and
      [GenerateData] a Python float is the exact rational ([Q]) it
      holds and the operations are the exact ones; equality of computed
      values is [Qeq] ([==]).  This model carries the properties that do
      not depend on rounding: shapes, the order of the exceptions, what
      is selected, matched, written and read.  In [Binary64] a Python
      float is a binary64 number and every operation rounds as the
      interpreter's; the properties of the bin boundaries are settled
      there.
    - Python integers are [Z].
    - A Python exception is a value [Raise e] of the [result] type; the
      monadic bind stops at the first exception, as the interpreter does.
    - The external libraries (fastjet, Pythia, numpy's random generator)
      are an interface, [FastJet], and explicit inputs of the functions
      that call them. *)

From Stdlib Require Import String ZArith QArith Qround Qabs List Bool Lia Lqa.
From Stdlib Require Import Sorting.Permutation Sorting.Sorted.
From Stdlib Require Import Floats.
Import ListNotations.
Open Scope Q_scope.

(** ** Exceptions and results *)

Inductive exn : Type :=
| ZeroDivisionError
| IndexError
| ValueError
| AssertionError
| OverflowError.

Inductive result (A : Type) : Type :=
| Ok (a : A)
| Raise (e : exn).

Arguments Ok {A} a.
Arguments Raise {A} e.

Definition bind {A B : Type} (r : result A) (k : A -> result B) : result B :=
  match r with
  | Ok a => k a
  | Raise e => Raise e
  end.

Notation "x <- r ;; k" := (bind r (fun x => k))
  (at level 61, r at next level, right associativity).

Definition is_ok {A : Type} (r : result A) : bool :=
  match r with Ok _ => true | Raise _ => false end.

(** ** Python arithmetic on exact rationals *)

(** [int(x)] on a float: truncation towards zero. *)
Definition py_int (x : Q) : Z :=
  if Qle_bool 0 x then Qfloor x else Qceiling x.

(** [a / b] on floats: raises [ZeroDivisionError] when [b] is zero. *)
Definition py_div (a b : Q) : result Q :=
  if Qeq_bool b 0 then Raise ZeroDivisionError else Ok (a / b).

(** [a < b] and [a > b] as booleans. *)
Definition Qlt_bool (a b : Q) : bool := negb (Qle_bool b a).

(** ** numpy arrays

    An array is its shape and its cells in row-major (C) order, which is
    the order [flatten] returns. *)

Record ndarray (A : Type) : Type := mk_ndarray {
  shape : list Z;
  data : list A
}.

Arguments mk_ndarray {A} shape data.
Arguments shape {A} n.
Arguments data {A} n.

Definition cells_of_shape (s : list Z) : Z := fold_right Z.mul 1%Z s.

(** The array holds as many cells as its shape says. *)
Definition well_shaped {A : Type} (a : ndarray A) : Prop :=
  List.length (data a) = Z.to_nat (cells_of_shape (shape a)).

(** [np.zeros(shape=s)]: a negative dimension is a [ValueError]. *)
Definition np_zeros (s : list Z) : result (ndarray Q) :=
  if forallb (fun n => (0 <=? n)%Z) s
  then Ok (mk_ndarray s (repeat 0 (Z.to_nat (cells_of_shape s))))
  else Raise ValueError.

(** One axis of an integer index: [-n <= i < 0] counts from the end,
    anything outside [-n, n) is an [IndexError]. *)
Definition axis_index (i n : Z) : result Z :=
  if ((0 <=? i) && (i <? n))%Z then Ok i
  else if ((- n <=? i) && (i <? 0))%Z then Ok (i + n)%Z
  else Raise IndexError.

Fixpoint list_update {A : Type} (f : A -> A) (k : nat) (l : list A) : list A :=
  match l, k with
  | [], _ => []
  | a :: l', O => f a :: l'
  | a :: l', S k' => a :: list_update f k' l'
  end.

(** [a[i, j, k] += v] on a three-dimensional array. *)
Definition iadd3 (a : ndarray Q) (i j k : Z) (v : Q) : result (ndarray Q) :=
  match shape a with
  | [nx; ny; nz] =>
      i' <- axis_index i nx ;;
      j' <- axis_index j ny ;;
      k' <- axis_index k nz ;;
      Ok (mk_ndarray (shape a)
            (list_update (fun c => c + v)
               (Z.to_nat ((i' * ny + j') * nz + k')) (data a)))
  | _ => Raise IndexError
  end.

(** [a.flatten()]. *)
Definition flatten {A : Type} (a : ndarray A) : list A := data a.

(** The sum of all cells. *)
Definition total (a : ndarray Q) : Q := fold_right Qplus 0 (data a).

(** ** fastjet

    A [PseudoJet] is a four-momentum with a user index; a clustered jet
    also carries the particles it was built from. *)

#[warnings="-register-all"]
Inductive PseudoJet : Type := mk_PseudoJet {
  px : Q;
  py : Q;
  pz : Q;
  E : Q;
  user_index : Z;
  constituents : list PseudoJet
}.

(** [coeff * jet]: the momentum is scaled, the rest is kept. *)
Definition scale (coeff : Q) (jet : PseudoJet) : PseudoJet :=
  mk_PseudoJet (coeff * px jet) (coeff * py jet) (coeff * pz jet)
    (coeff * E jet) (user_index jet) (constituents jet).

(** What the program asks of fastjet.  The kinematic accessors involve
    square roots, logarithms and arc tangents of the momentum, clustering
    is the anti-kt algorithm: both are taken as given.  [sorted_by_pt]
    is known by its contract only: a rearrangement in descending [pt]. *)
Class FastJet : Type := {
  pt : PseudoJet -> Q;
  eta : PseudoJet -> Q;
  phi : PseudoJet -> Q;
  m : PseudoJet -> Q;
  delta_phi_to : PseudoJet -> PseudoJet -> Q;
  squared_distance : PseudoJet -> PseudoJet -> Q;
  inclusive_jets : Q -> list PseudoJet -> list PseudoJet;
  sorted_by_pt : list PseudoJet -> list PseudoJet;
  sorted_by_pt_Permutation :
    forall l, Permutation (sorted_by_pt l) l;
  sorted_by_pt_descending :
    forall l, StronglySorted (fun a b => pt b <= pt a) (sorted_by_pt l)
}.

Section Selectors.
Context {FJ : FastJet}.

(** [SelectorAbsEtaMax(absetamax)]. *)
Definition SelectorAbsEtaMax (absetamax : Q) (jet : PseudoJet) : bool :=
  Qle_bool (Qabs (eta jet)) absetamax.

(** [SelectorPtRange(ptmin, ptmax)]: fastjet compares squares. *)
Definition SelectorPtRange (ptmin ptmax : Q) (jet : PseudoJet) : bool :=
  Qle_bool (ptmin * ptmin) (pt jet * pt jet) &&
  Qle_bool (pt jet * pt jet) (ptmax * ptmax).

(** [SelectorPtMin(ptmin)]. *)
Definition SelectorPtMin (ptmin : Q) (jet : PseudoJet) : bool :=
  Qle_bool (ptmin * ptmin) (pt jet * pt jet).

(** [SelectorCircle(radius)] with its reference set: the jets whose
    squared distance to the reference is at most [radius] squared. *)
Definition SelectorCircle (radius : Q) (reference jet : PseudoJet) : bool :=
  Qle_bool (squared_distance jet reference) (radius * radius).


End Selectors.

(** ** Files

    The program writes four text files.  A trace records what happens to
    them and what is printed. *)

Inductive handle : Type :=
| det_jet_file
| det_image_file
| gen_jet_file
| gen_image_file.

(** The strings handed to [write].  The numbers are kept as they are:
    [JetLine] stands for ['{}, {}, {}, {}\n'.format(...)], [ImageCells]
    for the [','] join of the cells printed with ['%.6f']. *)
Inductive text : Type :=
| JetLine (jet_pt jet_eta jet_phi jet_m : Q)
| ImageCells (cells : list Q)
| Newline.

Inductive io_event : Type :=
| Print (s : string)
| Open (f : handle)
| Write (f : handle) (t : text)
| Close (f : handle).

Definition handle_eqb (a b : handle) : bool :=
  match a, b with
  | det_jet_file, det_jet_file
  | det_image_file, det_image_file
  | gen_jet_file, gen_jet_file
  | gen_image_file, gen_image_file => true
  | _, _ => false
  end.

(** How often a trace opens, and closes, the file [h]. *)
Fixpoint opens (h : handle) (trace : list io_event) : nat :=
  match trace with
  | [] => 0
  | Open f :: rest =>
      if handle_eqb f h then S (opens h rest) else opens h rest
  | _ :: rest => opens h rest
  end.

Fixpoint closes (h : handle) (trace : list io_event) : nat :=
  match trace with
  | [] => 0
  | Close f :: rest =>
      if handle_eqb f h then S (closes h rest) else closes h rest
  | _ :: rest => closes h rest
  end.

(** The texts a trace writes to the file [h], in order. *)
Fixpoint written_to (h : handle) (trace : list io_event) : list text :=
  match trace with
  | [] => []
  | Write f t :: rest =>
      if handle_eqb f h then t :: written_to h rest else written_to h rest
  | _ :: rest => written_to h rest
  end.

Definition is_write (e : io_event) : bool :=
  match e with Write _ _ => true | _ => false end.

(** ** image.py *)

Module Image.

(** The sentinel returned for a value outside the axis. *)
Definition out_of_range : Z := (-1)%Z.

(** [find_bin(val, nbins, min_val, delta)], lines 12-18, with exact
    comparisons, product, difference and quotient.  Next to an edge of
    the axis the rounded operations of the interpreter can give another
    bin: see [Binary64.find_bin]. *)
Definition find_bin (val : Q) (nbins : Z) (min_val delta : Q) : result Z :=
  if Qlt_bool val min_val then Ok out_of_range
  else if Qlt_bool (min_val + inject_Z nbins * delta) val then Ok out_of_range
  else q <- py_div (val - min_val) delta ;; Ok (py_int q).

(** The [params] dictionary of [pseudojet_to_image]. *)
Record ImageParams : Type := mk_ImageParams {
  x_bins : Z;
  x_min : Q;
  x_max : Q;
  y_bins : Z;
  y_min : Q;
  y_max : Q;
  z_bins : Z
}.

(** A [for] loop whose body may raise. *)
Fixpoint for_each {A S : Type} (body : S -> A -> result S) (l : list A)
  (s : S) : result S :=
  match l with
  | [] => Ok s
  | a :: l' => s' <- body s a ;; for_each body l' s'
  end.

Section Rasterizer.
Context {FJ : FastJet}.

(** Line 57: [z_bin = abs(charge) if z_bins == 2 else 0]. *)
Definition z_bin_of (params : ImageParams) (charge : Z) : Z :=
  if (z_bins params =? 2)%Z then Z.abs charge else 0%Z.

(** The body of the loop over the constituents, lines 50-62; the
    difference [deta] and the sum of [+=] are the exact ones. *)
Definition add_constituent (params : ImageParams) (x_delta y_delta : Q)
  (jet : PseudoJet) (image : ndarray Q) (constituent : PseudoJet)
  : result (ndarray Q) :=
  let deta := eta constituent - eta jet in
  let dphi := delta_phi_to jet constituent in
  let charge := user_index constituent in
  let pt_ := pt constituent in
  x_bin <- find_bin deta (x_bins params) (x_min params) x_delta ;;
  y_bin <- find_bin dphi (y_bins params) (y_min params) y_delta ;;
  let z_bin := z_bin_of params charge in
  if ((x_bin =? -1) || (y_bin =? -1))%Z then Ok image
  else iadd3 image x_bin y_bin z_bin pt_.

(** [pseudojet_to_image(jet, params)], lines 21-64. *)
Definition pseudojet_to_image (jet : PseudoJet) (params : ImageParams)
  : result (ndarray Q) :=
  x_delta <- py_div (x_max params - x_min params) (inject_Z (x_bins params)) ;;
  y_delta <- py_div (y_max params - y_min params) (inject_Z (y_bins params)) ;;
  image <- np_zeros [x_bins params; y_bins params; z_bins params] ;;
  for_each (add_constituent params x_delta y_delta jet)
    (constituents jet) image.

(** [write_image_to_file(jet_file, image_file, jet, image)], lines 66-72:
    the three calls of [write], in order. *)
Definition write_image_to_file (jet_file image_file : handle)
  (jet : PseudoJet) (image : ndarray Q) : list io_event :=
  let jet_txt := JetLine (pt jet) (eta jet) (phi jet) (m jet) in
  let flattened_image := flatten image in
  [ Write jet_file jet_txt;
    Write image_file (ImageCells flattened_image);
    Write image_file Newline ].

(** The line of the jet file and the two writes to the image file that
    [write_image_to_file] makes for a jet and its image. *)
Definition jet_line (record : PseudoJet * ndarray Q) : text :=
  JetLine (pt (fst record)) (eta (fst record)) (phi (fst record))
    (m (fst record)).

Definition image_line (record : PseudoJet * ndarray Q) : list text :=
  [ImageCells (flatten (snd record)); Newline].

End Rasterizer.

(** *** The reader

    A file is taken after tokenising: one list of numeric fields per
    line.  [float32] is the conversion to [np.float32]. *)

Inductive cell : Type :=
| Number (q : Q)
| NaN.

Definition csv_file : Type := list (list Q).

Section Reader.
Variable float32 : Q -> Q.

(** One line under [names = range(ncols)], [index_col = False]: fields
    beyond the names are dropped, missing ones are filled with NaN. *)
Definition fit_row (ncols : nat) (fields : list Q) : list cell :=
  map (fun q => Number (float32 q)) (firstn ncols fields)
  ++ repeat NaN (ncols - List.length fields).

(** [read_csv(file, names=range(ncols), header=None, ...).values], for
    a positive number of names.  (Without a name pandas takes the
    columns from the data; the statements about the reader are for
    positive image dimensions.) *)
Definition read_csv (ncols : Z) (file : csv_file) : ndarray cell :=
  mk_ndarray [Z.of_nat (List.length file); Z.max 0 ncols]
    (concat (map (fit_row (Z.to_nat ncols)) file)).

(** [a.reshape(s)] for a shape without negative dimension: the number
    of cells must be kept.  (numpy takes one negative dimension as the
    one to infer; the reader is used with positive dimensions.) *)
Definition reshape {A : Type} (a : ndarray A) (s : list Z)
  : result (ndarray A) :=
  if forallb (fun n => (0 <=? n)%Z) s
     && (cells_of_shape s =? Z.of_nat (List.length (data a)))%Z
  then Ok (mk_ndarray s (data a))
  else Raise ValueError.

(** [a.shape[0]]. *)
Definition shape0 {A : Type} (a : ndarray A) : Z := nth 0 (shape a) 0%Z.

(** [load_jet_images(jet_file, image_file, image_width, image_height,
    image_channels)], lines 75-90. *)
Definition load_jet_images (jet_file image_file : csv_file)
  (image_width image_height image_channels : Z)
  : result (ndarray cell * ndarray cell) :=
  let image_size := (image_width * image_height * image_channels)%Z in
  let df_images := read_csv image_size image_file in
  let df_jets := read_csv image_size jet_file in
  let images := df_images in
  images <- reshape images
              [shape0 images; image_width; image_height; image_channels] ;;
  let jets := df_jets in
  if (shape0 images =? shape0 jets)%Z then Ok (jets, images)
  else Raise AssertionError.


End Reader.

(** *** What the writer leaves in a file

    The number a field of a written line spells.  ['%.6f' % x] spells
    the multiple of 10^-6 nearest to [x], ties to the even one;
    ['{}'.format(x)] spells the shortest decimal that reads back as the
    float [x], which is taken as the function [shortest]. *)




End Image.

(** ** generators.py *)

Module Generators.

(** A particle of the Pythia event record. *)
Record PythiaParticle : Type := mk_PythiaParticle {
  p_px : Q;
  p_py : Q;
  p_pz : Q;
  p_e : Q;
  charge : Q;
  isFinal : bool;
  isVisible : bool
}.

(** What the outside world hands to one call of [next]: whether Pythia
    produced an event and its particles ([pythia_next]), and the samples
    [gauss_gen] would draw ([gauss_gen i] is the i-th of them). *)
Record PythiaEvent : Type := mk_PythiaEvent {
  pythia_next : option (list PythiaParticle);
  gauss_gen : nat -> Q
}.

(** [MakePseudoJet(p)], lines 15-18.  The label is [int(p.charge())];
    fastjet keeps it in a C [int], which the charge of a particle, a
    small number of elementary charges, does not exceed. *)
Definition MakePseudoJet (p : PythiaParticle) : PseudoJet :=
  mk_PseudoJet (p_px p) (p_py p) (p_pz p) (p_e p) (py_int (charge p)) [].

(** The attributes of a [PythiaGenerator]; [cluster_seq] keeps the
    particle lists of the cluster sequences it holds. *)
Record PythiaGenerator : Type := mk_PythiaGenerator {
  pt_hat_min : Q;
  pt_hat_max : Q;
  gen_args : list string;
  seed : Z;
  initialized : bool;
  jet_radius : Q;
  track_pt_min : Q;
  track_pt_max : Q;
  track_eta_max : Q;
  jet_pt_min : Q;
  jet_eta_max : Q;
  truth_particles : list PseudoJet;
  detector_particles : list PseudoJet;
  gen_jet : list PseudoJet;
  det_jet : list PseudoJet;
  gauss_smear : bool;
  tpc_sim : bool;
  star_sim : bool;
  gauss_mean : Q;
  gauss_sigma : Q;
  cluster_seq : list (list PseudoJet)
}.

(** [__init__], lines 28-69. *)
Definition new (pt_hat_min pt_hat_max jet_radius track_pt_min track_pt_max
  track_eta_max jet_pt_min : Q) (gauss_smear tpc_sim star_sim : bool)
  (gauss_mean gauss_sigma : Q) : PythiaGenerator :=
  mk_PythiaGenerator pt_hat_min pt_hat_max [] 1%Z false
    jet_radius track_pt_min track_pt_max track_eta_max jet_pt_min
    (track_eta_max - jet_radius)
    [] [] [] []
    gauss_smear tpc_sim star_sim gauss_mean gauss_sigma [].

(** Assignments to the attributes that change after construction. *)
Definition set_lists (g : PythiaGenerator)
  (truth detector gen det : list PseudoJet) (seqs : list (list PseudoJet))
  : PythiaGenerator :=
  mk_PythiaGenerator (pt_hat_min g) (pt_hat_max g) (gen_args g) (seed g)
    (initialized g) (jet_radius g) (track_pt_min g) (track_pt_max g)
    (track_eta_max g) (jet_pt_min g) (jet_eta_max g)
    truth detector gen det
    (gauss_smear g) (tpc_sim g) (star_sim g) (gauss_mean g) (gauss_sigma g)
    seqs.

Definition set_truth_particles (g : PythiaGenerator) (v : list PseudoJet) :=
  set_lists g v (detector_particles g) (gen_jet g) (det_jet g) (cluster_seq g).

Definition set_detector_particles (g : PythiaGenerator) (v : list PseudoJet) :=
  set_lists g (truth_particles g) v (gen_jet g) (det_jet g) (cluster_seq g).

Definition set_initialized (g : PythiaGenerator) (b : bool) : PythiaGenerator :=
  mk_PythiaGenerator (pt_hat_min g) (pt_hat_max g) (gen_args g) (seed g)
    b (jet_radius g) (track_pt_min g) (track_pt_max g)
    (track_eta_max g) (jet_pt_min g) (jet_eta_max g)
    (truth_particles g) (detector_particles g) (gen_jet g) (det_jet g)
    (gauss_smear g) (tpc_sim g) (star_sim g) (gauss_mean g) (gauss_sigma g)
    (cluster_seq g).

Definition no_simulation_warning : string :=
  "Warning: no detector simulation method has been chosen disabling detector simulation"%string.

Definition read_string_failed : string := "pythia read string failed"%string.

(** [init], lines 80-115.  [readString_raises] tells for which settings
    the call of [readString] raises (Pythia itself reports a setting it
    does not know by returning [False], which [init] ignores) and
    [pythia_init] what [self.gen.init()] returns; the result is the
    generator, the lines printed and the returned status. *)
Definition init (g : PythiaGenerator) (readString_raises : string -> bool)
  (pythia_init : bool) : PythiaGenerator * list string * bool :=
  let failures :=
    map (fun _ => read_string_failed)
      (filter readString_raises (gen_args g)) in
  let g := set_initialized g pythia_init in
  let warning :=
    if negb (star_sim g) && negb (gauss_smear g) && negb (tpc_sim g)
    then [no_simulation_warning] else [] in
  (g, failures ++ warning, initialized g).

Section WithFastJet.
Context {FJ : FastJet}.

(** The selectors made by [init], lines 103-107. *)
Definition track_selector (g : PythiaGenerator) (jet : PseudoJet) : bool :=
  SelectorAbsEtaMax (track_eta_max g) jet &&
  SelectorPtRange (track_pt_min g) (track_pt_max g) jet.

Definition jet_selector (g : PythiaGenerator) (jet : PseudoJet) : bool :=
  SelectorAbsEtaMax (jet_eta_max g) jet &&
  SelectorPtMin (jet_pt_min g) jet.

(** [smearing * self.truth_particles]: element by element. *)
Definition smeared (smearing : list Q) (particles : list PseudoJet)
  : list PseudoJet :=
  map (fun sp => scale (fst sp) (snd sp)) (combine smearing particles).

(** The value of [self.detector_particles] when line 133 applies the
    track selector to it: lines 122-130.  [gauss i] is the i-th sample
    that [gauss_gen] drew for [gauss_mean] and [gauss_sigma]; a negative
    [gauss_sigma], for which numpy draws nothing and raises, is outside
    the model. *)
Definition simulated_particles (g : PythiaGenerator) (gauss : nat -> Q)
  : list PseudoJet :=
  let detector_particles := [] in
  if gauss_smear g then
    let smearing := map gauss (seq 0 (List.length (truth_particles g))) in
    smeared smearing (truth_particles g)
  else if tpc_sim g then truth_particles g
  else if star_sim g then truth_particles g
  else detector_particles.

(** [smear_tracks], lines 117-135. *)
Definition smear_tracks (g : PythiaGenerator) (gauss : nat -> Q)
  : PythiaGenerator :=
  set_detector_particles g
    (filter (track_selector g) (simulated_particles g gauss)).

(** [next], lines 138-170: the generator afterwards and the value
    returned ([False], or nothing). *)
Definition next (g : PythiaGenerator) (ev : PythiaEvent)
  : PythiaGenerator * option bool :=
  let g := set_lists g [] (detector_particles g) [] [] [] in
  match pythia_next ev with
  | None => (g, Some false)
  | Some event =>
      let g := set_truth_particles g
                 (map MakePseudoJet
                    (filter (fun p => isFinal p && isVisible p) event)) in
      let g := smear_tracks g (gauss_gen ev) in
      let truth_cluster := truth_particles g in
      let det_cluster := detector_particles g in
      let gen_jet' :=
        sorted_by_pt
          (filter (jet_selector g) (inclusive_jets (jet_radius g) truth_cluster)) in
      let det_jet' :=
        sorted_by_pt
          (filter (jet_selector g) (inclusive_jets (jet_radius g) det_cluster)) in
      (set_lists g (truth_particles g) (detector_particles g) gen_jet' det_jet'
         (cluster_seq g ++ [truth_cluster] ++ [det_cluster]), None)
  end.

(** [detector_jets] and [generator_jets], lines 172-182. *)
Definition detector_jets (g : PythiaGenerator) : list PseudoJet := det_jet g.
Definition generator_jets (g : PythiaGenerator) : list PseudoJet := gen_jet g.

End WithFastJet.

End Generators.

(** ** generate_data.py *)

Module GenerateData.

Import Image Generators.

(** The command-line arguments [main] reads (those that only name the
    output files are left out). *)
Record Args : Type := mk_Args {
  events : Z;
  arg_jet_radius : Q;
  gaussian_smear : bool;
  gaussian_mean : Q;
  gaussian_width : Q;
  arg_tpc_sim : bool;
  arg_star_sim : bool;
  image_width_eta : Q;
  image_width_phi : Q;
  pixels_eta : Z;
  pixels_phi : Z;
  split_charge : bool;
  arg_pt_hat_min : Q;
  arg_pt_hat_max : Q;
  arg_jet_pt_min : Q
}.

(** What Pythia does during one run. *)
Record World : Type := mk_World {
  readString_raises : string -> bool;
  pythia_init : bool;
  pythia_events : list PythiaEvent
}.

(** Lines 28-35. *)
Definition image_params_of (args : Args) : ImageParams :=
  mk_ImageParams
    (pixels_eta args) (- (image_width_eta args / 2)) (image_width_eta args / 2)
    (pixels_phi args) (- (image_width_phi args / 2)) (image_width_phi args / 2)
    (if split_charge args then 2%Z else 1%Z).

Section WithFastJet.
Context {FJ : FastJet}.

(** Lines 73-85: the truth jet and the detector jet matched to it, if
    the event has one. *)
Definition match_jets (radius : Q) (det_jets gen_jets : list PseudoJet)
  : option (PseudoJet * PseudoJet) :=
  if (List.length det_jets =? 0)%nat || (List.length gen_jets =? 0)%nat
  then None
  else
    match gen_jets with
    | [] => None
    | truth_jet :: _ =>
        let candidates :=
          sorted_by_pt (filter (SelectorCircle radius truth_jet) det_jets) in
        match candidates with
        | [] => None
        | detector_jet :: _ => Some (truth_jet, detector_jet)
        end
    end.

(** Lines 88-93: the images of a matched pair and the four records. *)
Definition write_pair (image_params : ImageParams)
  (truth_jet detector_jet : PseudoJet) : result (list io_event) :=
  det_jet_image <- pseudojet_to_image detector_jet image_params ;;
  gen_jet_image <- pseudojet_to_image truth_jet image_params ;;
  Ok (write_image_to_file det_jet_file det_image_file detector_jet det_jet_image
      ++ write_image_to_file gen_jet_file gen_image_file truth_jet gen_jet_image).

(** One turn of the loop, lines 66-93: the generator afterwards and what
    the turn wrote, or the exception it raised. *)
Definition loop_body (args : Args) (image_params : ImageParams)
  (g : PythiaGenerator) (ev : PythiaEvent)
  : PythiaGenerator * result (list io_event) :=
  let g := fst (next g ev) in
  let det_jets := detector_jets g in
  let gen_jets := generator_jets g in
  match match_jets (arg_jet_radius args) det_jets gen_jets with
  | None => (g, Ok [])
  | Some (truth_jet, detector_jet) =>
      (g, write_pair image_params truth_jet detector_jet)
  end.

(** The loop, over the events of the run: the trace so far grows with
    each turn; an exception ends the loop. *)
Fixpoint run_loop (args : Args) (image_params : ImageParams)
  (g : PythiaGenerator) (evs : list PythiaEvent) (trace : list io_event)
  : list io_event * result unit :=
  match evs with
  | [] => (trace, Ok tt)
  | ev :: evs' =>
      match loop_body args image_params g ev with
      | (g', Ok written) => run_loop args image_params g' evs' (trace ++ written)
      | (_, Raise e) => (trace, Raise e)
      end
  end.

(** [main(args)], lines 13-93: the trace of the run and how it ended. *)
Definition main (args : Args) (w : World) : list io_event * result unit :=
  let g := new (arg_pt_hat_min args) (arg_pt_hat_max args) (arg_jet_radius args)
             (2 # 10) 30 1 (arg_jet_pt_min args)
             (gaussian_smear args) (arg_tpc_sim args) (arg_star_sim args)
             (gaussian_mean args) (gaussian_width args) in
  let '(g, printed, _) := init g (readString_raises w) (pythia_init w) in
  let image_params := image_params_of args in
  let opened :=
    [Open det_jet_file; Open det_image_file;
     Open gen_jet_file; Open gen_image_file] in
  run_loop args image_params g
    (firstn (Z.to_nat (events args)) (pythia_events w))
    (map Print printed ++ opened).

End WithFastJet.

End GenerateData.

(** ** image.py on binary64 numbers

    [find_bin] and the loop of [pseudojet_to_image] once more, on the
    floats of the interpreter: every comparison, difference, product,
    quotient and sum is the binary64 one.  A constituent is given by the
    four values the loop reads from it. *)

Module Binary64.

(** The exact value of a finite float. *)
Definition exact (x : float) : option Q :=
  match Prim2SF x with
  | S754_zero _ => Some 0
  | S754_finite s m e =>
      let magnitude :=
        match e with
        | Z0 => inject_Z (Zpos m)
        | Zpos k => inject_Z (Zpos m * 2 ^ Zpos k)
        | Zneg k => Qmake (Zpos m) (2 ^ k)
        end in
      Some (if s then - magnitude else magnitude)
  | S754_infinity _ | S754_nan => None
  end.

(** An integer operand of a float operation: the nearest float, ties to
    even; an integer too large for a float is an [OverflowError]. *)
Definition float_of_int (n : Z) : result float :=
  match binary_normalize prec emax n 0 false with
  | S754_infinity _ => Raise OverflowError
  | f => Ok (SF2Prim f)
  end.

(** [int(x)]: truncation towards zero; [nan] is a [ValueError], an
    infinity an [OverflowError]. *)
Definition py_int (x : float) : result Z :=
  match Prim2SF x with
  | S754_zero _ => Ok 0%Z
  | S754_finite s m e =>
      let magnitude :=
        match e with
        | Z0 => Zpos m
        | Zpos k => (Zpos m * 2 ^ Zpos k)%Z
        | Zneg k => (Zpos m / 2 ^ Zpos k)%Z
        end in
      Ok (if s then (- magnitude)%Z else magnitude)
  | S754_infinity _ => Raise OverflowError
  | S754_nan => Raise ValueError
  end.

(** [a / b]: a zero divisor is a [ZeroDivisionError]. *)
Definition py_div (a b : float) : result float :=
  if (b =? 0)%float then Raise ZeroDivisionError else Ok (a / b)%float.

(** [find_bin(val, nbins, min_val, delta)], lines 12-18. *)
Definition find_bin (val : float) (nbins : Z) (min_val delta : float)
  : result Z :=
  if (val <? min_val)%float then Ok (-1)%Z
  else
    n <- float_of_int nbins ;;
    if (min_val + n * delta <? val)%float then Ok (-1)%Z
    else q <- py_div (val - min_val)%float delta ;; py_int q.

Record ImageParams : Type := mk_ImageParams {
  x_bins : Z;
  x_min : float;
  x_max : float;
  y_bins : Z;
  y_min : float;
  y_max : float;
  z_bins : Z
}.

(** What the loop reads from a constituent: [eta()], the
    [delta_phi_to] of the jet, [user_index()] and [pt()]. *)
Record Constituent : Type := mk_Constituent {
  c_eta : float;
  c_delta_phi : float;
  c_user_index : Z;
  c_pt : float
}.

(** [np.zeros(shape=s)]. *)
Definition np_zeros (s : list Z) : result (ndarray float) :=
  if forallb (fun n => (0 <=? n)%Z) s
  then Ok (mk_ndarray s (repeat 0%float (Z.to_nat (cells_of_shape s))))
  else Raise ValueError.

(** [a[i, j, k] += v]. *)
Definition iadd3 (a : ndarray float) (i j k : Z) (v : float)
  : result (ndarray float) :=
  match shape a with
  | [nx; ny; nz] =>
      i' <- axis_index i nx ;;
      j' <- axis_index j ny ;;
      k' <- axis_index k nz ;;
      Ok (mk_ndarray (shape a)
            (list_update (fun c => (c + v)%float)
               (Z.to_nat ((i' * ny + j') * nz + k')) (data a)))
  | _ => Raise IndexError
  end.

(** Line 57. *)
Definition z_bin_of (params : ImageParams) (charge : Z) : Z :=
  if (z_bins params =? 2)%Z then Z.abs charge else 0%Z.

(** The body of the loop, lines 50-62. *)
Definition add_constituent (params : ImageParams) (x_delta y_delta : float)
  (jet_eta : float) (image : ndarray float) (constituent : Constituent)
  : result (ndarray float) :=
  let deta := (c_eta constituent - jet_eta)%float in
  let dphi := c_delta_phi constituent in
  let charge := c_user_index constituent in
  let pt_ := c_pt constituent in
  x_bin <- find_bin deta (x_bins params) (x_min params) x_delta ;;
  y_bin <- find_bin dphi (y_bins params) (y_min params) y_delta ;;
  let z_bin := z_bin_of params charge in
  if ((x_bin =? -1) || (y_bin =? -1))%Z then Ok image
  else iadd3 image x_bin y_bin z_bin pt_.

(** [pseudojet_to_image(jet, params)], lines 21-64, for a jet at
    [jet_eta] with the given constituents. *)
Definition pseudojet_to_image (jet_eta : float)
  (constituents : list Constituent) (params : ImageParams)
  : result (ndarray float) :=
  nx <- float_of_int (x_bins params) ;;
  x_delta <- py_div (x_max params - x_min params)%float nx ;;
  ny <- float_of_int (y_bins params) ;;
  y_delta <- py_div (y_max params - y_min params)%float ny ;;
  image <- np_zeros [x_bins params; y_bins params; z_bins params] ;;
  Image.for_each (add_constituent params x_delta y_delta jet_eta)
    constituents image.


(** The parameters of the driver's defaults: 32 x 32 pixels on
    [-0.5, 0.5] in eta and phi, the charge split. *)
Definition default_params : ImageParams :=
  mk_ImageParams 32 (-0.5) 0.5 32 (-0.5) 0.5 2.

(** The largest float below 0.5, printed 0.49999999999999994. *)
Definition below_half : float := 0x1.fffffffffffffp-2.

(** A neutral constituent of pt 1 at the azimuth of the jet. *)
Definition neutral_at (eta : float) : Constituent :=
  mk_Constituent eta 0 0 1.


End Binary64.

(** ** A rational stand-in for fastjet

    Used to run the definitions on concrete inputs.  The four numbers of
    a [PseudoJet] are read as (pt, phi, eta, m); the azimuthal difference
    is a plain difference; every particle is a jet of its own; sorting
    is by insertion. *)

Module Toy.

Definition pt (j : PseudoJet) : Q := px j.
Definition phi (j : PseudoJet) : Q := py j.
Definition eta (j : PseudoJet) : Q := pz j.
Definition m (j : PseudoJet) : Q := E j.

Definition delta_phi_to (a b : PseudoJet) : Q := phi b - phi a.

Definition squared_distance (a b : PseudoJet) : Q :=
  (eta a - eta b) * (eta a - eta b) + (phi a - phi b) * (phi a - phi b).

Definition single (p : PseudoJet) : PseudoJet :=
  mk_PseudoJet (px p) (py p) (pz p) (E p) (user_index p) [p].

Definition inclusive_jets (R : Q) (particles : list PseudoJet)
  : list PseudoJet :=
  map single particles.

Fixpoint insert_by_pt (j : PseudoJet) (l : list PseudoJet) : list PseudoJet :=
  match l with
  | [] => [j]
  | k :: l' =>
      if Qle_bool (pt k) (pt j) then j :: l else k :: insert_by_pt j l'
  end.

Definition sorted_by_pt (l : list PseudoJet) : list PseudoJet :=
  fold_right insert_by_pt [] l.

(** A particle given by (pt, phi, eta) and its charge label. *)
Definition particle (pt phi eta : Q) (charge : Z) : PseudoJet :=
  mk_PseudoJet pt phi eta 0 charge [].

(** A jet given by (pt, phi, eta) and its constituents. *)
Definition jet (pt phi eta : Q) (parts : list PseudoJet) : PseudoJet :=
  mk_PseudoJet pt phi eta 0 0%Z parts.

(** Two bins on [-1, 1] in eta and in phi, and [z] charge channels. *)
Definition unit_window (z : Z) : Image.ImageParams :=
  Image.mk_ImageParams 2 (-1) 1 2 (-1) 1 z.

(** A jet at (eta, phi) = (0, 0) with a constituent of pt 3 at the
    offsets (-1/2, -1/2) and one of pt 7 at (1/2, 1/2). *)
Definition scenario_jet : PseudoJet :=
  jet 10 0 0 [particle 3 (-1 # 2) (-1 # 2) 0; particle 7 (1 # 2) (1 # 2) 0].

(** A jet file and an image file of one row each, for 2 x 2 x 2 images,
    and an image file of two rows. *)
Definition jet_rows : Image.csv_file := [[10; 0; 0; 1]].
Definition image_rows : Image.csv_file := [[3; 0; 0; 0; 0; 0; 7; 0]].

(** A conversion to [np.float32] that keeps the numbers of the files
    above, which are small integers. *)
Definition exact (q : Q) : Q := q.

(** A generator with no detector simulation selected. *)
Definition plain_generator : Generators.PythiaGenerator :=
  Generators.new 20 30 (4 # 10) (2 # 10) 30 1 10 false false false 1 (2 # 10).

(** A final, visible pion of pt 20 along the axis, and a photon of
    pt 25 at (phi, eta) = (1/2, 1/2). *)
Definition pion : Generators.PythiaParticle :=
  Generators.mk_PythiaParticle 20 0 0 0 1 true true.

Definition far_photon : Generators.PythiaParticle :=
  Generators.mk_PythiaParticle 25 (1 # 2) (1 # 2) 0 0 true true.

(** A final, visible particle of charge 2 along the axis. *)
Definition alpha : Generators.PythiaParticle :=
  Generators.mk_PythiaParticle 20 0 0 0 2 true true.

Definition unit_noise (i : nat) : Q := 1.

(** An event Pythia produced, and one it failed to produce. *)
Definition one_pion : Generators.PythiaEvent :=
  Generators.mk_PythiaEvent (Some [pion]) unit_noise.

Definition failed_event : Generators.PythiaEvent :=
  Generators.mk_PythiaEvent None unit_noise.

Definition one_alpha : Generators.PythiaEvent :=
  Generators.mk_PythiaEvent (Some [alpha]) unit_noise.

(** An event of two particles, the photon 1/2 away from the pion in eta
    and in phi. *)
Definition pion_and_photon : Generators.PythiaEvent :=
  Generators.mk_PythiaEvent (Some [pion; far_photon]) unit_noise.

(** The generator [main] builds for the passthrough simulation. *)
Definition tpc_generator : Generators.PythiaGenerator :=
  Generators.new 20 30 (4 # 10) (2 # 10) 30 1 10 false true false 1 (2 # 10).

(** Command lines for [n] events: [tpc] tells whether the passthrough
    simulation is selected (no method is, otherwise); images of 2 x 2
    pixels on [-1, 1] with the charge split, a matching radius of 4/10. *)
Definition command_line (n : Z) (tpc : bool) : GenerateData.Args :=
  GenerateData.mk_Args n (4 # 10) false 1 (2 # 10) tpc false
    2 2 2 2 true 20 30 10.

Definition world (evs : list Generators.PythiaEvent) : GenerateData.World :=
  GenerateData.mk_World (fun _ => false) true evs.

End Toy.

(** * Properties *)

(** ** Booleans, results and rationals *)

Lemma Qlt_bool_true (a b : Q) : Qlt_bool a b = true <-> a < b.
Proof.
  unfold Qlt_bool. rewrite negb_true_iff.
  destruct (Qle_bool b a) eqn:H.
  - apply Qle_bool_iff in H. split; [discriminate | intro; lra].
  - split; [intros _ | reflexivity].
    apply Qnot_le_lt. intro Hle. apply Qle_bool_iff in Hle. congruence.
Qed.


Lemma Ok_inj {A : Type} (a b : A) : Ok a = Ok b -> a = b.
Proof.
  congruence.
Qed.


(** ** The stand-in meets the interface *)

Module ToyFacts.
Import Toy.

Lemma insert_by_pt_Permutation (j : PseudoJet) (l : list PseudoJet) :
  Permutation (insert_by_pt j l) (j :: l).
Proof.
  induction l as [| k l IH]; cbn; [reflexivity |].
  destruct (Qle_bool (pt k) (pt j)); [reflexivity |].
  rewrite IH. apply perm_swap.
Qed.

Lemma toy_sorted_by_pt_Permutation (l : list PseudoJet) :
  Permutation (sorted_by_pt l) l.
Proof.
  induction l as [| j l IH]; cbn; [constructor |].
  rewrite insert_by_pt_Permutation. now constructor.
Qed.

Lemma insert_by_pt_descending (j : PseudoJet) (l : list PseudoJet) :
  StronglySorted (fun a b => pt b <= pt a) l ->
  StronglySorted (fun a b => pt b <= pt a) (insert_by_pt j l).
Proof.
  induction 1 as [| k l Hs IH Hk]; cbn.
  - repeat constructor.
  - destruct (Qle_bool (pt k) (pt j)) eqn:Hle.
    + apply Qle_bool_iff in Hle. constructor; [now constructor |].
      constructor; [exact Hle |].
      eapply Forall_impl; [| exact Hk]. intros a Ha. cbn in Ha. lra.
    + constructor; [exact IH |].
      assert (Hlt : pt j <= pt k).
      { destruct (Qlt_le_dec (pt j) (pt k)) as [H | H]; [lra |].
        apply Qle_bool_iff in H. congruence. }
      eapply Permutation_Forall;
        [symmetry; apply insert_by_pt_Permutation |].
      now constructor.
Qed.

Lemma toy_sorted_by_pt_descending (l : list PseudoJet) :
  StronglySorted (fun a b => pt b <= pt a) (sorted_by_pt l).
Proof.
  induction l as [| j l IH]; cbn; [constructor |].
  now apply insert_by_pt_descending.
Qed.

End ToyFacts.

Definition toy_fastjet : FastJet := {|
  pt := Toy.pt;
  eta := Toy.eta;
  phi := Toy.phi;
  m := Toy.m;
  delta_phi_to := Toy.delta_phi_to;
  squared_distance := Toy.squared_distance;
  inclusive_jets := Toy.inclusive_jets;
  sorted_by_pt := Toy.sorted_by_pt;
  sorted_by_pt_Permutation := ToyFacts.toy_sorted_by_pt_Permutation;
  sorted_by_pt_descending := ToyFacts.toy_sorted_by_pt_descending
|}.

(** Steps through a [bind] whose first computation has returned. *)
Ltac run_bind := cbv beta iota delta [bind].

(** ** Arrays *)

Lemma flat_index_bound (i j k nx ny nz : Z) :
  (0 <= i < nx)%Z -> (0 <= j < ny)%Z -> (0 <= k < nz)%Z ->
  (0 <= (i * ny + j) * nz + k < nx * ny * nz)%Z.
Proof.
  intros Hi Hj Hk.
  assert (H0 : (0 <= i * ny)%Z) by (apply Z.mul_nonneg_nonneg; lia).
  assert (H1 : ((i + 1) * ny <= nx * ny)%Z)
    by (apply Z.mul_le_mono_nonneg_r; lia).
  assert (H2 : (0 <= (i * ny + j) * nz)%Z)
    by (apply Z.mul_nonneg_nonneg; lia).
  assert (H3 : ((i * ny + j + 1) * nz <= nx * ny * nz)%Z)
    by (apply Z.mul_le_mono_nonneg_r; lia).
  lia.
Qed.

Lemma length_list_update {A : Type} (f : A -> A) (k : nat) (l : list A) :
  List.length (list_update f k l) = List.length l.
Proof.
  revert k. induction l as [| a l IH]; intros [| k]; cbn; auto.
Qed.

Lemma sum_list_update (v : Q) (k : nat) (l : list Q) :
  (k < List.length l)%nat ->
  fold_right Qplus 0 (list_update (fun c => c + v) k l)
  == fold_right Qplus 0 l + v.
Proof.
  revert k. induction l as [| a l IH]; intros k Hk; cbn in Hk; [lia |].
  destruct k as [| k]; cbn.
  - ring.
  - rewrite IH by lia. ring.
Qed.

Lemma axis_index_Ok (i n i' : Z) :
  axis_index i n = Ok i' -> (0 <= i' < n)%Z.
Proof.
  unfold axis_index.
  destruct ((0 <=? i) && (i <? n))%Z eqn:H1.
  - intros [= <-]. apply andb_true_iff in H1 as [Ha Hb].
    apply Z.leb_le in Ha. apply Z.ltb_lt in Hb. lia.
  - destruct ((- n <=? i) && (i <? 0))%Z eqn:H2; [| discriminate].
    intros [= <-]. apply andb_true_iff in H2 as [Ha Hb].
    apply Z.leb_le in Ha. apply Z.ltb_lt in Hb. lia.
Qed.

(** Whenever [a[i, j, k] += v] returns, the shape is kept and the sum of
    the cells has grown by [v]. *)
Lemma iadd3_Ok (a a' : ndarray Q) (i j k nx ny nz : Z) (v : Q) :
  shape a = [nx; ny; nz] -> well_shaped a -> iadd3 a i j k v = Ok a' ->
  shape a' = [nx; ny; nz] /\ well_shaped a' /\ total a' == total a + v.
Proof.
  intros Hs Hw. unfold iadd3. rewrite Hs.
  destruct (axis_index i nx) as [i' |] eqn:Hi; [| discriminate].
  destruct (axis_index j ny) as [j' |] eqn:Hj; [| discriminate].
  destruct (axis_index k nz) as [k' |] eqn:Hk; [| discriminate].
  run_bind. intros [= <-]. cbn [shape data].
  apply axis_index_Ok in Hi, Hj, Hk.
  unfold well_shaped in *. cbn [shape data]. rewrite length_list_update.
  rewrite Hs in Hw. cbn in Hw.
  split; [reflexivity |]. split; [exact Hw |].
  unfold total. cbn [data]. apply sum_list_update.
  rewrite Hw.
  pose proof (flat_index_bound i' j' k' nx ny nz Hi Hj Hk) as Hb.
  replace (nx * (ny * (nz * 1)))%Z with (nx * ny * nz)%Z by ring.
  apply Z2Nat.inj_lt; lia.
Qed.

(** ** load_jet_images *)

Module Reader.
Import Image.

Section WithFloat32.
Variable float32 : Q -> Q.

Lemma length_fit_row (ncols : nat) (fields : list Q) :
  List.length (fit_row float32 ncols fields) = ncols.
Proof.
  unfold fit_row. rewrite length_app, length_map, length_firstn, repeat_length.
  lia.
Qed.

Lemma length_rows (ncols : nat) (file : csv_file) :
  List.length (concat (map (fit_row float32 ncols) file))
  = (List.length file * ncols)%nat.
Proof.
  induction file as [| fields file IH]; cbn; [reflexivity |].
  rewrite length_app, length_fit_row, IH. reflexivity.
Qed.

Lemma shape0_read_csv (ncols : Z) (file : csv_file) :
  shape0 (read_csv float32 ncols file) = Z.of_nat (List.length file).
Proof.
  reflexivity.
Qed.

(** The reshape of line 84 succeeds for dimensions that are not
    negative. *)
Lemma reshape_images (file : csv_file) (w h c : Z) :
  (0 <= w)%Z -> (0 <= h)%Z -> (0 <= c)%Z ->
  reshape (read_csv float32 (w * h * c) file)
    [shape0 (read_csv float32 (w * h * c) file); w; h; c]
  = Ok (mk_ndarray [Z.of_nat (List.length file); w; h; c]
          (concat (map (fit_row float32 (Z.to_nat (w * h * c))) file))).
Proof.
  intros Hw Hh Hc. unfold reshape. rewrite shape0_read_csv.
  cbn [forallb data read_csv cells_of_shape fold_right].
  rewrite length_rows.
  replace (0 <=? Z.of_nat (List.length file))%Z with true
    by (symmetry; apply Z.leb_le; lia).
  apply Z.leb_le in Hw as Hw', Hh as Hh', Hc as Hc'.
  rewrite Hw', Hh', Hc'. cbn [andb].
  replace (_ =? _)%Z with true; [reflexivity |].
  symmetry. apply Z.eqb_eq.
  rewrite Nat2Z.inj_mul, Z2Nat.id.
  - ring.
  - apply Z.mul_nonneg_nonneg; [apply Z.mul_nonneg_nonneg |]; assumption.
Qed.

(** What the reader returns for dimensions that are not negative. *)
Lemma load_jet_images_eq (jet_file image_file : csv_file) (w h c : Z) :
  (0 <= w)%Z -> (0 <= h)%Z -> (0 <= c)%Z ->
  load_jet_images float32 jet_file image_file w h c
  = if (Z.of_nat (List.length image_file)
        =? Z.of_nat (List.length jet_file))%Z
    then Ok (read_csv float32 (w * h * c) jet_file,
             mk_ndarray [Z.of_nat (List.length image_file); w; h; c]
               (concat (map (fit_row float32 (Z.to_nat (w * h * c)))
                          image_file)))
    else Raise AssertionError.
Proof.
  intros Hw Hh Hc. unfold load_jet_images.
  rewrite (reshape_images image_file w h c Hw Hh Hc). run_bind.
  reflexivity.
Qed.

(** For files of [n] rows each the jet array has one column per image
    cell, the image array has the shape (n, w, h, c), and the rows come
    in the order of the files. *)
Lemma load_jet_images_shapes (jet_file image_file : csv_file) (w h c : Z) :
  (0 <= w)%Z -> (0 <= h)%Z -> (0 <= c)%Z ->
  List.length jet_file = List.length image_file ->
  exists jets images,
    load_jet_images float32 jet_file image_file w h c = Ok (jets, images) /\
    shape jets = [Z.of_nat (List.length jet_file); Z.max 0 (w * h * c)] /\
    shape images = [Z.of_nat (List.length image_file); w; h; c] /\
    data jets
    = concat (map (fit_row float32 (Z.to_nat (w * h * c))) jet_file) /\
    data images
    = concat (map (fit_row float32 (Z.to_nat (w * h * c))) image_file).
Proof.
  intros Hw Hh Hc Hn. rewrite load_jet_images_eq by assumption.
  rewrite Hn, Z.eqb_refl. do 2 eexists. split; [reflexivity |].
  cbn. rewrite Hn. repeat split.
Qed.

End WithFloat32.

(** C3 on the code: a jet file of one row of four fields, read for
    2 x 2 x 2 images, comes back with the shape (1, 8) and not (1, 4):
    the jet file is read under the column names of the image file, and
    the four columns without a field hold NaN.  The image array has the
    shape (1, 2, 2, 2). *)
Theorem load_jet_images_jet_columns :
  load_jet_images Toy.exact Toy.jet_rows Toy.image_rows 2 2 2
  = Ok (mk_ndarray [1; 8]%Z
          [Number 10; Number 0; Number 0; Number 1; NaN; NaN; NaN; NaN],
        mk_ndarray [1; 2; 2; 2]%Z
          [Number 3; Number 0; Number 0; Number 0;
           Number 0; Number 0; Number 7; Number 0]).
Proof.
  vm_compute. reflexivity.
Qed.

End Reader.

(** ** smear_tracks *)

Module Smearing.
Import Generators.

(** With no method selected the list given to the track selector is
    empty, whatever the truth particles are. *)
Lemma no_method_no_particles (g : PythiaGenerator) (gauss : nat -> Q) :
  gauss_smear g = false -> tpc_sim g = false -> star_sim g = false ->
  simulated_particles g gauss = [].
Proof.
  intros H1 H2 H3. unfold simulated_particles. now rewrite H1, H2, H3.
Qed.

(** The sibling branches: both passthrough methods hand the truth
    particles to the track selector as they are. *)
Lemma passthrough_is_identity (g : PythiaGenerator) (gauss : nat -> Q) :
  gauss_smear g = false -> tpc_sim g = true \/ star_sim g = true ->
  simulated_particles g gauss = truth_particles g.
Proof.
  intros H1 [H2 | H2]; unfold simulated_particles; rewrite H1.
  - now rewrite H2.
  - rewrite H2. now destruct (tpc_sim g).
Qed.

(** [init] prints the warning exactly when no method is selected and no
    setting is rejected. *)
Lemma init_warns (g : PythiaGenerator) (raises : string -> bool)
  (b : bool) :
  gen_args g = [] ->
  snd (fst (init g raises b))
  = if negb (star_sim g) && negb (gauss_smear g) && negb (tpc_sim g)
    then [no_simulation_warning] else [].
Proof.
  intro H. unfold init. rewrite H. reflexivity.
Qed.

(** C1 on the code: with no method selected [init] prints the warning,
    and for an event of one pion the truth particles are that pion while
    the list [smear_tracks] gives to the track selector is empty, as is
    the list of detector particles after it. *)
Theorem no_method_selected :
  snd (fst (init Toy.plain_generator (fun _ => false) true))
  = [no_simulation_warning] /\
  truth_particles
    (set_truth_particles Toy.plain_generator [MakePseudoJet Toy.pion])
  = [MakePseudoJet Toy.pion] /\
  simulated_particles
    (set_truth_particles Toy.plain_generator [MakePseudoJet Toy.pion])
    Toy.unit_noise
  = [] /\
  detector_particles
    (smear_tracks (FJ := toy_fastjet)
       (set_truth_particles Toy.plain_generator [MakePseudoJet Toy.pion])
       Toy.unit_noise)
  = [].
Proof.
  repeat split.
Qed.

End Smearing.

(** ** The event loop *)

Module Driver.
Import Image Generators GenerateData.

Lemma closes_app (h : handle) (l1 l2 : list io_event) :
  closes h (l1 ++ l2) = (closes h l1 + closes h l2)%nat.
Proof.
  induction l1 as [| e l1 IH]; cbn; [reflexivity |].
  destruct e; try exact IH. destruct (handle_eqb f h); cbn; now rewrite IH.
Qed.

Lemma opens_app (h : handle) (l1 l2 : list io_event) :
  opens h (l1 ++ l2) = (opens h l1 + opens h l2)%nat.
Proof.
  induction l1 as [| e l1 IH]; cbn; [reflexivity |].
  destruct e; try exact IH. destruct (handle_eqb f h); cbn; now rewrite IH.
Qed.

Lemma writes_do_not_close (h : handle) (l : list io_event) :
  forallb is_write l = true -> closes h l = 0%nat /\ opens h l = 0%nat.
Proof.
  induction l as [| e l IH]; cbn; [now split |].
  destruct e; cbn; try discriminate. exact IH.
Qed.

Lemma prints_do_not_close (h : handle) (l : list string) :
  closes h (map Print l) = 0%nat /\ opens h (map Print l) = 0%nat.
Proof.
  induction l as [| e l IH]; cbn; [now split | exact IH].
Qed.

Section WithFastJet.
Context {FJ : FastJet}.

Lemma write_pair_writes (image_params : ImageParams)
  (truth_jet detector_jet : PseudoJet) (written : list io_event) :
  write_pair image_params truth_jet detector_jet = Ok written ->
  forallb is_write written = true.
Proof.
  unfold write_pair.
  destruct (pseudojet_to_image detector_jet image_params); [| discriminate].
  run_bind.
  destruct (pseudojet_to_image truth_jet image_params); [| discriminate].
  run_bind. intros [= <-]. reflexivity.
Qed.

Lemma loop_body_writes (args : Args) (image_params : ImageParams)
  (g g' : PythiaGenerator) (ev : PythiaEvent) (written : list io_event) :
  loop_body args image_params g ev = (g', Ok written) ->
  forallb is_write written = true.
Proof.
  unfold loop_body.
  destruct (match_jets _ _ _) as [[truth_jet detector_jet] |].
  - intros [= _ H]. now apply write_pair_writes in H.
  - intros [= _ <-]. reflexivity.
Qed.

(** The loop neither opens nor closes a file, however it ends. *)
Lemma run_loop_keeps_files (args : Args) (image_params : ImageParams)
  (h : handle) (evs : list PythiaEvent) :
  forall (g : PythiaGenerator) (trace : list io_event),
  closes h (fst (run_loop args image_params g evs trace)) = closes h trace /\
  opens h (fst (run_loop args image_params g evs trace)) = opens h trace.
Proof.
  induction evs as [| ev evs IH]; intros g trace; cbn [run_loop].
  - now split.
  - destruct (loop_body args image_params g ev) as [g' [written | e]] eqn:Hb.
    + apply loop_body_writes in Hb.
      destruct (writes_do_not_close h written Hb) as [Hc Ho].
      destruct (IH g' (trace ++ written)) as [IHc IHo].
      rewrite IHc, IHo, closes_app, opens_app, Hc, Ho. lia.
    + now split.
Qed.

(** C8, as the code has it.  On every run of [main], whether the loop
    runs to its end or an exception interrupts it, each of the four
    output files is opened exactly once and the program never closes
    it: the trace holds no [close] of any of them. *)
Theorem files_opened_once_never_closed (args : Args) (w : World)
  (h : handle) :
  opens h (fst (main args w)) = 1%nat /\
  closes h (fst (main args w)) = 0%nat.
Proof.
  unfold main.
  destruct (init _ _ _) as [[g printed] status].
  destruct (run_loop_keeps_files args (image_params_of args) h
              (firstn (Z.to_nat (events args)) (pythia_events w)) g
              (map Print printed
               ++ [Open det_jet_file; Open det_image_file;
                   Open gen_jet_file; Open gen_image_file]))
    as [Hc Ho].
  rewrite Hc, Ho, closes_app, opens_app.
  destruct (prints_do_not_close h printed) as [Hpc Hpo].
  rewrite Hpc, Hpo. destruct h; split; reflexivity.
Qed.

(** *** Matching *)


(** For a distance and a radius that are not negative, comparing the
    squares is comparing the numbers. *)
Lemma within_radius_distance (dist radius : Q) :
  0 <= dist -> 0 <= radius ->
  (dist * dist <= radius * radius <-> dist <= radius).
Proof.
  intros Hd Hr. split; intro H.
  - destruct (Qlt_le_dec radius dist) as [Hlt | Hle]; [nra | exact Hle].
  - nra.
Qed.






(** *** A failed event *)

Lemma next_failed (g : PythiaGenerator) (ev : PythiaEvent) :
  pythia_next ev = None ->
  next g ev = (set_lists g [] (detector_particles g) [] [] [], Some false).
Proof.
  intro H. unfold next. now rewrite H.
Qed.

(** C10.  When Pythia fails to produce the event, [next] returns
    [False], the turn of the loop raises nothing and writes nothing, and
    the loop goes on with the remaining events on an unchanged trace. *)
Theorem failed_event_is_skipped (args : Args) (image_params : ImageParams)
  (g : PythiaGenerator) (ev : PythiaEvent) (evs : list PythiaEvent)
  (trace : list io_event) :
  pythia_next ev = None ->
  snd (next g ev) = Some false /\
  loop_body args image_params g ev = (fst (next g ev), Ok []) /\
  run_loop args image_params g (ev :: evs) trace
  = run_loop args image_params (fst (next g ev)) evs trace.
Proof.
  intro Hfail.
  assert (Hbody : loop_body args image_params g ev = (fst (next g ev), Ok [])).
  { unfold loop_body. rewrite (next_failed g ev Hfail). reflexivity. }
  split; [now rewrite (next_failed g ev Hfail) |]. split; [exact Hbody |].
  cbn [run_loop]. rewrite Hbody, app_nil_r. reflexivity.
Qed.

End WithFastJet.


(** [failed_event_is_skipped] on a run of a failed event followed by a
    pion. *)
Lemma failed_event_is_skipped_witness :
  pythia_next Toy.failed_event = None /\
  run_loop (FJ := toy_fastjet) (Toy.command_line 2 true)
    (image_params_of (Toy.command_line 2 true)) Toy.tpc_generator
    [Toy.failed_event; Toy.one_pion] []
  = run_loop (FJ := toy_fastjet) (Toy.command_line 2 true)
      (image_params_of (Toy.command_line 2 true))
      (fst (next (FJ := toy_fastjet) Toy.tpc_generator Toy.failed_event))
      [Toy.one_pion] [].
Proof.
  split; [reflexivity |].
  apply (failed_event_is_skipped (FJ := toy_fastjet)). reflexivity.
Defined.

(** C8 as stated fails on a run of one event that is written: the run
    ends normally, the detector jet file has received its line, and the
    trace closes that file zero times, not once. *)
Lemma run_without_close :
  snd (main (FJ := toy_fastjet) (Toy.command_line 1 true)
         (Toy.world [Toy.one_pion])) = Ok tt /\
  written_to det_jet_file
    (fst (main (FJ := toy_fastjet) (Toy.command_line 1 true)
            (Toy.world [Toy.one_pion])))
  = [JetLine 20 0 0 0] /\
  closes det_jet_file
    (fst (main (FJ := toy_fastjet) (Toy.command_line 1 true)
            (Toy.world [Toy.one_pion])))
  = 0%nat.
Proof.
  repeat split; vm_compute; reflexivity.
Qed.

(** A run interrupted by an exception: the charge label 2 makes the
    rasterizer raise in the first turn; nothing is written and no file
    is closed. *)
Example interrupted_run :
  main (FJ := toy_fastjet) (Toy.command_line 2 true)
    (Toy.world [Toy.one_alpha; Toy.one_pion])
  = ([Open det_jet_file; Open det_image_file;
      Open gen_jet_file; Open gen_image_file], Raise IndexError).
Proof.
  vm_compute. reflexivity.
Qed.

End Driver.

(** * Further properties of the code *)

(** ** find_bin: an axis without width *)

Module Bins.
Import Image.



End Bins.

(** ** pseudojet_to_image: shapes and bad parameters *)

Module Images.
Import Image.

Section WithFastJet.
Context {FJ : FastJet}.

(** Whatever the parameters, a turn of the loop that returns keeps the
    shape and the number of cells. *)
Lemma add_constituent_keeps (params : ImageParams) (dx dy : Q)
  (jet c : PseudoJet) (image image' : ndarray Q) (nx ny nz : Z) :
  shape image = [nx; ny; nz] -> well_shaped image ->
  add_constituent params dx dy jet image c = Ok image' ->
  shape image' = [nx; ny; nz] /\ well_shaped image'.
Proof.
  intros Hs Hw. unfold add_constituent.
  destruct (find_bin _ (x_bins params) _ _) as [xb |]; [| discriminate].
  run_bind.
  destruct (find_bin _ (y_bins params) _ _) as [yb |]; [| discriminate].
  run_bind.
  destruct (_ || _).
  - intros [= <-]. now split.
  - intro Hadd.
    destruct (iadd3_Ok image image' _ _ _ nx ny nz _ Hs Hw Hadd)
      as (H1 & H2 & _).
    now split.
Qed.

Lemma for_each_keeps (params : ImageParams) (dx dy : Q) (jet : PseudoJet)
  (nx ny nz : Z) (l : list PseudoJet) : forall image image',
  shape image = [nx; ny; nz] -> well_shaped image ->
  for_each (add_constituent params dx dy jet) l image = Ok image' ->
  shape image' = [nx; ny; nz] /\ well_shaped image'.
Proof.
  induction l as [| c l IH]; intros image image' Hs Hw; cbn [for_each].
  - intros [= <-]. now split.
  - destruct (add_constituent params dx dy jet image c) as [image1 |] eqn:Hc;
      [| discriminate].
    run_bind. intro Hrest.
    destruct (add_constituent_keeps _ _ _ _ _ _ _ _ _ _ Hs Hw Hc) as [Hs1 Hw1].
    exact (IH image1 image' Hs1 Hw1 Hrest).
Qed.

Lemma returned_image (jet : PseudoJet) (params : ImageParams)
  (image : ndarray Q) :
  pseudojet_to_image jet params = Ok image ->
  shape image = [x_bins params; y_bins params; z_bins params] /\
  well_shaped image /\
  (0 <= x_bins params /\ 0 <= y_bins params /\ 0 <= z_bins params)%Z.
Proof.
  unfold pseudojet_to_image.
  destruct (py_div _ (inject_Z (x_bins params))) as [dx |]; [| discriminate].
  run_bind.
  destruct (py_div _ (inject_Z (y_bins params))) as [dy |]; [| discriminate].
  run_bind.
  unfold np_zeros. cbn [forallb].
  destruct (0 <=? x_bins params)%Z eqn:Hx; [| discriminate].
  destruct (0 <=? y_bins params)%Z eqn:Hy; [| discriminate].
  destruct (0 <=? z_bins params)%Z eqn:Hz; [| discriminate].
  cbn [andb]. run_bind. intro Hloop.
  apply Z.leb_le in Hx, Hy, Hz.
  apply for_each_keeps
    with (nx := x_bins params) (ny := y_bins params) (nz := z_bins params)
    in Hloop.
  - destruct Hloop as [Hs Hw]. repeat split; assumption.
  - reflexivity.
  - unfold well_shaped. cbn [data shape]. apply repeat_length.
Qed.

(** Every image the rasterizer returns, for any parameters and any jet,
    has the shape (x_bins, y_bins, z_bins) with no negative dimension,
    and flattens to x_bins * y_bins * z_bins cells. *)
Theorem image_cell_count (jet : PseudoJet) (params : ImageParams)
  (image : ndarray Q) :
  pseudojet_to_image jet params = Ok image ->
  shape image = [x_bins params; y_bins params; z_bins params] /\
  (0 <= x_bins params /\ 0 <= y_bins params /\ 0 <= z_bins params)%Z /\
  Z.of_nat (List.length (flatten image))
  = (x_bins params * y_bins params * z_bins params)%Z.
Proof.
  intro H. destruct (returned_image jet params image H) as (Hs & Hw & Hd).
  split; [exact Hs |]. split; [exact Hd |].
  unfold flatten. rewrite Hw, Hs. cbn.
  rewrite Z2Nat.id.
  - ring.
  - repeat apply Z.mul_nonneg_nonneg; lia.
Qed.


End WithFastJet.

(** [image_cell_count] on the scenario of the specification. *)
Lemma image_cell_count_witness :
  pseudojet_to_image (FJ := toy_fastjet) Toy.scenario_jet (Toy.unit_window 1)
  = Ok (mk_ndarray [2; 2; 1]%Z [3; 0; 0; 7]) /\
  Z.of_nat (List.length (flatten (mk_ndarray [2; 2; 1]%Z [3; 0; 0; 7])))
  = (2 * 2 * 1)%Z.
Proof.
  assert (H : pseudojet_to_image (FJ := toy_fastjet) Toy.scenario_jet
                (Toy.unit_window 1)
              = Ok (mk_ndarray [2; 2; 1]%Z [3; 0; 0; 7]))
    by (vm_compute; reflexivity).
  split; [exact H |].
  apply (image_cell_count (FJ := toy_fastjet) _ _ _ H).
Defined.

End Images.

(** ** generators.py: particles, smearing and jets *)

Module Particles.
Import Generators.

Section WithFastJet.
Context {FJ : FastJet}.

Lemma length_smeared (smearing : list Q) (particles : list PseudoJet) :
  List.length smearing = List.length particles ->
  List.length (smeared smearing particles) = List.length particles.
Proof.
  intro H. unfold smeared. rewrite length_map, length_combine, H.
  apply Nat.min_id.
Qed.

Lemma length_simulated (g : PythiaGenerator) (gauss : nat -> Q) :
  (List.length (simulated_particles g gauss)
   <= List.length (truth_particles g))%nat.
Proof.
  unfold simulated_particles.
  destruct (gauss_smear g).
  - rewrite length_smeared; [lia |]. now rewrite length_map, length_seq.
  - destruct (tpc_sim g); [lia |]. destruct (star_sim g); cbn; lia.
Qed.

Lemma SelectorAbsEtaMax_true (absetamax : Q) (jet : PseudoJet) :
  SelectorAbsEtaMax absetamax jet = true <-> Qabs (eta jet) <= absetamax.
Proof.
  apply Qle_bool_iff.
Qed.

(** After [smear_tracks] every detector particle is within the track
    cuts, abs(eta) <= track_eta_max and track_pt_min^2 <= pt^2 <=
    track_pt_max^2, there are at most as many detector particles as
    truth particles, and the truth particles are untouched. *)
Theorem detector_particles_within_cuts (g : PythiaGenerator)
  (gauss : nat -> Q) :
  Forall (fun p =>
            Qabs (eta p) <= track_eta_max g /\
            track_pt_min g * track_pt_min g <= pt p * pt p /\
            pt p * pt p <= track_pt_max g * track_pt_max g)
    (detector_particles (smear_tracks g gauss)) /\
  (List.length (detector_particles (smear_tracks g gauss))
   <= List.length (truth_particles g))%nat /\
  truth_particles (smear_tracks g gauss) = truth_particles g.
Proof.
  split; [| split].
  - apply Forall_forall. intros p Hp. cbn in Hp.
    apply filter_In in Hp as [_ Hsel]. unfold track_selector in Hsel.
    apply andb_true_iff in Hsel as [He Hpt].
    unfold SelectorPtRange in Hpt. apply andb_true_iff in Hpt as [H1 H2].
    apply SelectorAbsEtaMax_true in He. apply Qle_bool_iff in H1, H2.
    now repeat split.
  - cbn. eapply Nat.le_trans; [apply filter_length_le |].
    apply length_simulated.
  - reflexivity.
Qed.

End WithFastJet.

Lemma smeared_nth (gauss : nat -> Q) (d : PseudoJet)
  (particles : list PseudoJet) : forall start i,
  (i < List.length particles)%nat ->
  nth i (smeared (map gauss (seq start (List.length particles))) particles)
    (scale (gauss (start + i)%nat) d)
  = scale (gauss (start + i)%nat) (nth i particles d).
Proof.
  induction particles as [| p l IH]; intros start i Hi; cbn in Hi; [lia |].
  destruct i as [| i]; cbn.
  - now rewrite Nat.add_0_r.
  - unfold smeared in IH.
    replace (start + S i)%nat with (S start + i)%nat by lia.
    apply IH. lia.
Qed.

(** Gaussian smearing, whatever the other two flags: the list given to
    the track selector has one particle per truth particle, in order;
    the i-th is the i-th truth particle with its momentum multiplied by
    the i-th sample, and it keeps the charge label. *)
Theorem gaussian_smearing (g : PythiaGenerator) (gauss : nat -> Q) :
  gauss_smear g = true ->
  List.length (simulated_particles g gauss)
  = List.length (truth_particles g) /\
  map user_index (simulated_particles g gauss)
  = map user_index (truth_particles g) /\
  forall i d, (i < List.length (truth_particles g))%nat ->
    nth i (simulated_particles g gauss) (scale (gauss i) d)
    = scale (gauss i) (nth i (truth_particles g) d).
Proof.
  intro Hg. unfold simulated_particles. rewrite Hg.
  split; [| split].
  - unfold smeared. rewrite length_map, length_combine, length_map, length_seq.
    apply Nat.min_id.
  - generalize 0%nat. induction (truth_particles g) as [| p l IH];
      intro start; cbn; [reflexivity |].
    f_equal. apply IH.
  - intros i d Hi. exact (smeared_nth gauss d (truth_particles g) 0 i Hi).
Qed.

(** [gaussian_smearing] on a generator with the samples 1, 1, ... *)
Lemma gaussian_smearing_witness :
  gauss_smear
    (set_truth_particles
       (new 20 30 (4 # 10) (2 # 10) 30 1 10 true true false 1 (2 # 10))
       [MakePseudoJet Toy.pion; MakePseudoJet Toy.alpha]) = true /\
  map user_index
    (simulated_particles
       (set_truth_particles
          (new 20 30 (4 # 10) (2 # 10) 30 1 10 true true false 1 (2 # 10))
          [MakePseudoJet Toy.pion; MakePseudoJet Toy.alpha])
       Toy.unit_noise)
  = [1; 2]%Z.
Proof.
  split; [reflexivity |].
  apply (gaussian_smearing
           (set_truth_particles
              (new 20 30 (4 # 10) (2 # 10) 30 1 10 true true false 1 (2 # 10))
              [MakePseudoJet Toy.pion; MakePseudoJet Toy.alpha])
           Toy.unit_noise).
  reflexivity.
Defined.

End Particles.

(** ** The jets of an event *)

Module Jets.
Import Image Generators GenerateData.

Section WithFastJet.
Context {FJ : FastJet}.

Lemma selected_sorted (g : PythiaGenerator) (l : list PseudoJet) :
  StronglySorted (fun a b => pt b <= pt a)
    (sorted_by_pt (filter (jet_selector g) l)) /\
  Forall (fun j =>
            Qabs (eta j) <= jet_eta_max g /\
            jet_pt_min g * jet_pt_min g <= pt j * pt j)
    (sorted_by_pt (filter (jet_selector g) l)).
Proof.
  split; [apply sorted_by_pt_descending |].
  eapply Permutation_Forall;
    [symmetry; apply sorted_by_pt_Permutation |].
  apply Forall_forall. intros j Hj. apply filter_In in Hj as [_ Hsel].
  unfold jet_selector in Hsel. apply andb_true_iff in Hsel as [He Hpt].
  apply Particles.SelectorAbsEtaMax_true in He.
  unfold SelectorPtMin in Hpt. apply Qle_bool_iff in Hpt. now split.
Qed.

(** After every call of [next], from any state and for any event, both
    jet lists are in descending pt and each of their jets is within the
    jet cuts: abs(eta) <= track_eta_max - jet_radius as set by the
    constructor, and pt^2 >= jet_pt_min^2. *)
Theorem jets_sorted_and_cut (g : PythiaGenerator) (ev : PythiaEvent) :
  StronglySorted (fun a b => pt b <= pt a)
    (generator_jets (fst (next g ev))) /\
  StronglySorted (fun a b => pt b <= pt a)
    (detector_jets (fst (next g ev))) /\
  Forall (fun j =>
            Qabs (eta j) <= jet_eta_max g /\
            jet_pt_min g * jet_pt_min g <= pt j * pt j)
    (generator_jets (fst (next g ev)) ++ detector_jets (fst (next g ev))).
Proof.
  unfold next. destruct (pythia_next ev) as [event |]; cbn [fst].
  - unfold generator_jets, detector_jets. cbn [gen_jet det_jet set_lists].
    set (g1 := smear_tracks _ _).
    destruct (selected_sorted g1
                (inclusive_jets (jet_radius g1) (truth_particles g1)))
      as [S1 F1].
    destruct (selected_sorted g1
                (inclusive_jets (jet_radius g1) (detector_particles g1)))
      as [S2 F2].
    split; [exact S1 |]. split; [exact S2 |].
    apply Forall_app. split; [exact F1 | exact F2].
  - cbn. repeat split; constructor.
Qed.

(** What a turn of the loop writes or raises, and the jets it finds, do
    not depend on the particle and jet lists an earlier event left in
    the generator: only on its settings and on the event. *)
Theorem turn_forgets_history (args : Args) (image_params : ImageParams)
  (g : PythiaGenerator) (ev : PythiaEvent)
  (truth detector gen det : list PseudoJet) (seqs : list (list PseudoJet)) :
  snd (loop_body args image_params
         (set_lists g truth detector gen det seqs) ev)
  = snd (loop_body args image_params g ev) /\
  generator_jets (fst (next (set_lists g truth detector gen det seqs) ev))
  = generator_jets (fst (next g ev)) /\
  detector_jets (fst (next (set_lists g truth detector gen det seqs) ev))
  = detector_jets (fst (next g ev)).
Proof.
  unfold loop_body, next.
  destruct (pythia_next ev) as [event |]; repeat split; reflexivity.
Qed.

End WithFastJet.

End Jets.

(** ** What a trace writes to a file *)

Module Runs.
Import Image Generators GenerateData.

Lemma written_to_app (h : handle) (l1 l2 : list io_event) :
  written_to h (l1 ++ l2) = written_to h l1 ++ written_to h l2.
Proof.
  induction l1 as [| e l1 IH]; cbn; [reflexivity |].
  destruct e; try exact IH. destruct (handle_eqb f h); cbn; now rewrite IH.
Qed.

Lemma written_to_prints (h : handle) (l : list string) :
  written_to h (map Print l) = [].
Proof.
  induction l as [| e l IH]; cbn; [reflexivity | exact IH].
Qed.

End Runs.

(** ** The records of a run *)

Module Records.
Import Image Generators GenerateData.

Section WithFastJet.
Context {FJ : FastJet}.

(** The four files hold the records [det] and [gen], jet lines and
    image lines in step. *)
Let holds (trace : list io_event) (det gen : list (PseudoJet * ndarray Q))
  : Prop :=
  written_to det_jet_file trace = map jet_line det /\
  written_to det_image_file trace = flat_map image_line det /\
  written_to gen_jet_file trace = map jet_line gen /\
  written_to gen_image_file trace = flat_map image_line gen.

Let fits (image_params : ImageParams) (record : PseudoJet * ndarray Q)
  : Prop :=
  shape (snd record)
  = [x_bins image_params; y_bins image_params; z_bins image_params].

Lemma holds_app (trace written : list io_event)
  (det gen det' gen' : list (PseudoJet * ndarray Q)) :
  holds trace det gen -> holds written det' gen' ->
  holds (trace ++ written) (det ++ det') (gen ++ gen').
Proof.
  intros (H1 & H2 & H3 & H4) (W1 & W2 & W3 & W4). unfold holds.
  rewrite !Runs.written_to_app, !map_app, !flat_map_app.
  rewrite H1, H2, H3, H4, W1, W2, W3, W4. repeat split.
Qed.

(** A turn writes no record or one record to each level. *)
Lemma loop_body_records (args : Args) (image_params : ImageParams)
  (g g' : PythiaGenerator) (ev : PythiaEvent) (written : list io_event) :
  loop_body args image_params g ev = (g', Ok written) ->
  exists det gen,
    holds written det gen /\
    List.length det = List.length gen /\ (List.length det <= 1)%nat /\
    Forall (fits image_params) (det ++ gen).
Proof.
  unfold loop_body.
  destruct (match_jets _ _ _) as [[truth_jet detector_jet] |].
  - intros [= _ Hw]. unfold write_pair in Hw.
    destruct (pseudojet_to_image detector_jet image_params)
      as [det_image |] eqn:E1; [| discriminate].
    cbv beta iota delta [bind] in Hw.
    destruct (pseudojet_to_image truth_jet image_params)
      as [gen_image |] eqn:E2; [| discriminate].
    cbv beta iota delta [bind] in Hw. apply Ok_inj in Hw. subst written.
    exists [(detector_jet, det_image)], [(truth_jet, gen_image)].
    split; [repeat split |]. split; [reflexivity |]. split; [cbn; lia |].
    apply Images.returned_image in E1 as [S1 _].
    apply Images.returned_image in E2 as [S2 _].
    repeat constructor; assumption.
  - intros [= _ <-]. exists [], [].
    split; [repeat split |]. split; [reflexivity |]. split; [cbn; lia |].
    constructor.
Qed.

Lemma run_loop_records (args : Args) (image_params : ImageParams)
  (evs : list PythiaEvent) : forall g trace det gen,
  holds trace det gen ->
  exists det' gen',
    holds (fst (run_loop args image_params g evs trace))
      (det ++ det') (gen ++ gen') /\
    List.length det' = List.length gen' /\
    (List.length det' <= List.length evs)%nat /\
    Forall (fits image_params) (det' ++ gen').
Proof.
  induction evs as [| ev evs IH]; intros g trace det gen Hh; cbn [run_loop].
  - exists [], []. rewrite !app_nil_r.
    split; [exact Hh |]. split; [reflexivity |]. split; [cbn; lia |].
    constructor.
  - destruct (loop_body args image_params g ev) as [g' [written | e]] eqn:Hb.
    + destruct (loop_body_records _ _ _ _ _ _ Hb)
        as (d1 & g1 & Hw & Hl & Hone & Hf).
      destruct (IH g' (trace ++ written) (det ++ d1) (gen ++ g1)
                  (holds_app _ _ _ _ _ _ Hh Hw))
        as (d2 & g2 & Hh2 & Hl2 & Hle & Hf2).
      exists (d1 ++ d2), (g1 ++ g2). rewrite !app_assoc.
      split; [exact Hh2 |]. rewrite !length_app.
      split; [lia |]. split; [cbn; lia |].
      apply Forall_app in Hf as [Hfd Hfg].
      apply Forall_app in Hf2 as [Hfd2 Hfg2].
      rewrite <- !app_assoc. repeat (apply Forall_app; split); assumption.
    + exists [], []. rewrite !app_nil_r.
      split; [exact Hh |]. split; [reflexivity |]. split; [cbn; lia |].
      constructor.
Qed.

(** However a run of [main] ends, the four files hold whole records in
    step: there are detector records and as many generator records, at
    most one per event of the run; the jet file of a level holds one
    jet line per record and its image file the cells of the same
    record followed by a newline, in the same order; and every image
    written has the shape (pixels_eta, pixels_phi, z_bins). *)
Theorem records_in_step (args : Args) (w : World) :
  exists det gen : list (PseudoJet * ndarray Q),
    written_to det_jet_file (fst (main args w)) = map jet_line det /\
    written_to det_image_file (fst (main args w)) = flat_map image_line det /\
    written_to gen_jet_file (fst (main args w)) = map jet_line gen /\
    written_to gen_image_file (fst (main args w)) = flat_map image_line gen /\
    List.length det = List.length gen /\
    (List.length det <= Z.to_nat (events args))%nat /\
    Forall (fun record =>
              shape (snd record)
              = [pixels_eta args; pixels_phi args;
                 if split_charge args then 2%Z else 1%Z])
      (det ++ gen).
Proof.
  unfold main.
  destruct (init _ _ _) as [[g printed] status].
  destruct (run_loop_records args (image_params_of args)
              (firstn (Z.to_nat (events args)) (pythia_events w)) g
              (map Print printed
               ++ [Open det_jet_file; Open det_image_file;
                   Open gen_jet_file; Open gen_image_file]) [] [])
    as (det & gen & (H1 & H2 & H3 & H4) & Hl & Hle & Hf).
  - unfold holds. rewrite !Runs.written_to_app, !Runs.written_to_prints.
    repeat split.
  - exists det, gen. cbn [app] in H1, H2, H3, H4.
    repeat (split; [assumption |]).
    split; [| exact Hf].
    eapply Nat.le_trans; [exact Hle |]. apply firstn_le_length.
Qed.

(** *** No simulation method *)

Section Unselected.
Hypothesis no_particles_no_jets : forall R, inclusive_jets R [] = [].

Lemma sorted_by_pt_empty : sorted_by_pt [] = [].
Proof.
  apply Permutation_nil. apply Permutation_sym. apply sorted_by_pt_Permutation.
Qed.

Lemma unselected_particles (g : PythiaGenerator) (gauss : nat -> Q) :
  gauss_smear g = false -> tpc_sim g = false -> star_sim g = false ->
  detector_particles (smear_tracks g gauss) = [].
Proof.
  intros H1 H2 H3. unfold smear_tracks.
  rewrite Smearing.no_method_no_particles by assumption. reflexivity.
Qed.

Lemma unselected_turn (args : Args) (image_params : ImageParams)
  (g : PythiaGenerator) (ev : PythiaEvent) :
  gauss_smear g = false -> tpc_sim g = false -> star_sim g = false ->
  snd (loop_body args image_params g ev) = Ok [] /\
  gauss_smear (fst (loop_body args image_params g ev)) = false /\
  tpc_sim (fst (loop_body args image_params g ev)) = false /\
  star_sim (fst (loop_body args image_params g ev)) = false.
Proof.
  intros H1 H2 H3.
  assert (Hdet : detector_jets (fst (next g ev)) = []).
  { unfold next. destruct (pythia_next ev) as [event |]; [| reflexivity].
    cbn [fst detector_jets det_jet set_lists].
    rewrite unselected_particles by (cbn; assumption).
    rewrite no_particles_no_jets. cbn [filter].
    apply sorted_by_pt_empty. }
  unfold loop_body. rewrite Hdet. cbn [match_jets List.length Nat.eqb orb].
  cbn [fst snd]. split; [reflexivity |].
  unfold next. destruct (pythia_next ev); cbn; auto.
Qed.

Lemma unselected_loop (args : Args) (image_params : ImageParams)
  (evs : list PythiaEvent) : forall g trace,
  gauss_smear g = false -> tpc_sim g = false -> star_sim g = false ->
  run_loop args image_params g evs trace = (trace, Ok tt).
Proof.
  induction evs as [| ev evs IH]; intros g trace H1 H2 H3; cbn [run_loop];
    [reflexivity |].
  destruct (unselected_turn args image_params g ev H1 H2 H3)
    as (Hw & G1 & G2 & G3).
  destruct (loop_body args image_params g ev) as [g' r].
  cbn [fst snd] in *. subst r. rewrite app_nil_r. now apply IH.
Qed.

(** With none of the three simulation methods selected, a run prints
    the warning, opens the four files, writes nothing to them whatever
    the events are, and ends normally. *)
Theorem unselected_run_writes_nothing (args : Args) (w : World) :
  gaussian_smear args = false -> arg_tpc_sim args = false ->
  arg_star_sim args = false ->
  main args w
  = ([Print no_simulation_warning;
      Open det_jet_file; Open det_image_file;
      Open gen_jet_file; Open gen_image_file], Ok tt).
Proof.
  intros H1 H2 H3. unfold main, init, new.
  cbn [gen_args filter map app set_initialized star_sim gauss_smear tpc_sim].
  rewrite H1, H2, H3. cbn [negb andb map app].
  apply unselected_loop; reflexivity.
Qed.

End Unselected.

End WithFastJet.

(** [unselected_run_writes_nothing] on a run of two events. *)
Lemma unselected_run_writes_nothing_witness :
  (forall R, inclusive_jets (FastJet := toy_fastjet) R [] = []) /\
  gaussian_smear (Toy.command_line 2 false) = false /\
  snd (main (FJ := toy_fastjet) (Toy.command_line 2 false)
         (Toy.world [Toy.one_pion; Toy.pion_and_photon])) = Ok tt.
Proof.
  split; [reflexivity |]. split; [reflexivity |].
  rewrite (unselected_run_writes_nothing (FJ := toy_fastjet)
             (fun R => eq_refl) (Toy.command_line 2 false)
             (Toy.world [Toy.one_pion; Toy.pion_and_photon])
             eq_refl eq_refl eq_refl).
  reflexivity.
Defined.

End Records.

(** ** Reading well-formed files, and the order of a trace *)

Module Files.
Import Image Generators GenerateData.

Section WithFloat32.
Variable float32 : Q -> Q.

Lemma fit_row_exact (ncols : nat) (fields : list Q) :
  (List.length fields <= ncols)%nat ->
  fit_row float32 ncols fields
  = map (fun q => Number (float32 q)) fields
    ++ repeat NaN (ncols - List.length fields).
Proof.
  intro H. unfold fit_row. now rewrite firstn_all2.
Qed.

(** Files as the writer makes them: jet rows of four fields, image rows
    of w*h*c fields, as many rows in both.  The reader then returns the
    image cells as the numbers of the image file, in file order, with
    nothing dropped and nothing filled in, under the shape (n, w, h, c);
    and for each jet row its four numbers followed by w*h*c - 4 NaN. *)
Theorem well_formed_files (jet_file image_file : csv_file) (w h c : Z) :
  (0 < w)%Z -> (0 < h)%Z -> (0 < c)%Z -> (4 <= w * h * c)%Z ->
  Forall (fun row => List.length row = 4%nat) jet_file ->
  Forall (fun row => Z.of_nat (List.length row) = (w * h * c)%Z) image_file ->
  List.length jet_file = List.length image_file ->
  load_jet_images float32 jet_file image_file w h c
  = Ok (mk_ndarray [Z.of_nat (List.length jet_file); (w * h * c)%Z]
          (flat_map
             (fun row =>
                map (fun q => Number (float32 q)) row
                ++ repeat NaN (Z.to_nat (w * h * c) - 4))
             jet_file),
        mk_ndarray [Z.of_nat (List.length image_file); w; h; c]
          (map (fun q => Number (float32 q)) (concat image_file))).
Proof.
  intros Hw Hh Hc H4 Hjets Himages Hn.
  rewrite Reader.load_jet_images_eq by lia.
  rewrite Hn, Z.eqb_refl. unfold read_csv. rewrite Hn.
  f_equal. f_equal.
  - f_equal.
    + f_equal. f_equal. lia.
    + rewrite flat_map_concat_map. f_equal.
      apply map_ext_in. intros row Hrow.
      rewrite Forall_forall in Hjets. specialize (Hjets row Hrow).
      rewrite fit_row_exact by lia. now rewrite Hjets.
  - f_equal. rewrite concat_map. f_equal.
    apply map_ext_in. intros row Hrow.
    rewrite Forall_forall in Himages. specialize (Himages row Hrow).
    rewrite fit_row_exact by lia.
    replace (Z.to_nat (w * h * c) - List.length row)%nat with 0%nat by lia.
    cbn [repeat]. apply app_nil_r.
Qed.

End WithFloat32.

(** [well_formed_files] on files of one row for 2 x 2 x 2 images. *)
Lemma well_formed_files_witness :
  (0 < 2)%Z /\ (4 <= 2 * 2 * 2)%Z /\
  List.length Toy.jet_rows = List.length Toy.image_rows /\
  load_jet_images Toy.exact Toy.jet_rows Toy.image_rows 2 2 2
  = Ok (mk_ndarray [1; 8]%Z
          (flat_map
             (fun row =>
                map (fun q => Number (Toy.exact q)) row
                ++ repeat NaN (Z.to_nat (2 * 2 * 2) - 4))
             Toy.jet_rows),
        mk_ndarray [1; 2; 2; 2]%Z
          (map (fun q => Number (Toy.exact q)) (concat Toy.image_rows))).
Proof.
  split; [lia |]. split; [lia |]. split; [reflexivity |].
  apply (well_formed_files Toy.exact Toy.jet_rows Toy.image_rows 2 2 2);
    try lia; try reflexivity; repeat constructor.
Defined.

Section WithFastJet.
Context {FJ : FastJet}.

Lemma run_loop_appends (args : Args) (image_params : ImageParams)
  (evs : list PythiaEvent) : forall g trace,
  exists written,
    fst (run_loop args image_params g evs trace) = trace ++ written /\
    forallb is_write written = true.
Proof.
  induction evs as [| ev evs IH]; intros g trace; cbn [run_loop].
  - exists []. now rewrite app_nil_r.
  - destruct (loop_body args image_params g ev) as [g' [written | e]] eqn:Hb.
    + apply Driver.loop_body_writes in Hb.
      destruct (IH g' (trace ++ written)) as (rest & Hr & Hw).
      exists (written ++ rest). rewrite Hr, app_assoc.
      split; [reflexivity |]. rewrite forallb_app, Hb, Hw. reflexivity.
    + exists []. now rewrite app_nil_r.
Qed.

(** The trace of every run, in order: the lines [init] prints, then the
    opening of the four files, detector files first, then writes only.
    Nothing is written to a file before all four are open, and nothing
    is printed once the loop has started. *)
Theorem trace_order (args : Args) (w : World) :
  exists printed written,
    fst (main args w)
    = map Print printed
      ++ [Open det_jet_file; Open det_image_file;
          Open gen_jet_file; Open gen_image_file]
      ++ written /\
    forallb is_write written = true /\
    (printed = [] \/ printed = [no_simulation_warning]).
Proof.
  unfold main, init, new.
  cbn [gen_args filter map app set_initialized].
  match goal with
  | |- context [run_loop ?a ?p ?g ?evs ?t] =>
      destruct (run_loop_appends a p evs g t) as (written & Hr & Hw)
  end.
  match type of Hr with
  | context [map Print ?l] => exists l, written
  end.
  rewrite Hr, <- app_assoc. split; [reflexivity |]. split; [exact Hw |].
  destruct (negb _ && negb _ && negb _); [now right | now left].
Qed.

End WithFastJet.

End Files.

(** * The bins on binary64 numbers *)

Module Edges.
Import Binary64.

(** C2 on the code.  With the driver's default axis, 32 bins of width
    0.03125 from -0.5, the largest float below the upper edge 0.5 is
    inside the axis and the floor of its exact quotient is 31, but
    [find_bin] returns 32: the difference [val - min_val] rounds to 1.
    The upper edge itself gets 32 as well, the upper guard being [>].
    32 is not an index of 32 bins. *)
Theorem find_bin_below_upper_edge :
  find_bin below_half 32 (-0.5) 0.03125 = Ok 32%Z /\
  (exists v lo w,
     exact below_half = Some v /\ exact (-0.5) = Some lo /\
     exact 0.03125 = Some w /\
     lo <= v /\ v < lo + inject_Z 32 * w /\
     Qfloor ((v - lo) / w) = 31%Z) /\
  find_bin 0.5 32 (-0.5) 0.03125 = Ok 32%Z /\
  ~ (0 <= 32 < 32)%Z.
Proof.
  split; [vm_compute; reflexivity |].
  split.
  - do 3 eexists.
    split; [vm_compute; reflexivity |].
    split; [vm_compute; reflexivity |].
    split; [vm_compute; reflexivity |].
    split; [vm_compute; discriminate |].
    split; vm_compute; reflexivity.
  - split; [vm_compute; reflexivity | lia].
Qed.

(** C5 on the code.  With the driver's default parameters, a jet at
    eta 0 whose only constituent has pt 1 and lies at the largest eta
    below the upper edge 0.5 of the window, hence inside the window, is
    not rasterized: [find_bin] gives the bin 32 and the accumulation
    raises [IndexError].  So does a constituent on the edge itself.
    Without constituents the image is returned. *)
Theorem rasterize_below_upper_edge :
  pseudojet_to_image 0 [neutral_at below_half] default_params
  = Raise IndexError /\
  (exists deta lo hi,
     exact (c_eta (neutral_at below_half) - 0)%float = Some deta /\
     exact (x_min default_params) = Some lo /\
     exact (x_max default_params) = Some hi /\
     lo <= deta /\ deta < hi) /\
  pseudojet_to_image 0 [neutral_at 0.5] default_params = Raise IndexError /\
  is_ok (pseudojet_to_image 0 [] default_params) = true.
Proof.
  split; [vm_compute; reflexivity |].
  split.
  - do 3 eexists.
    split; [vm_compute; reflexivity |].
    split; [vm_compute; reflexivity |].
    split; [vm_compute; reflexivity |].
    split; [vm_compute; discriminate | vm_compute; reflexivity].
  - split; vm_compute; reflexivity.
Qed.




End Edges.

(** * Reading back *)

Module Mismatch.
Import Image.




End Mismatch.

Module RoundTrip.
Import Image.






End RoundTrip.
